(** * ChainSonar: the contract activity pulse

    A shallow embedding of [analyze_contract_pulse] from
    [contract_activity_pulse.py], and the properties of its block scan,
    its accumulators and its two derived metrics.

    The Python function talks to a web3 provider, mutates two local
    accumulators inside a [for] loop whose body is wrapped in
    [try ... except Exception], and prints its findings.  It is embedded
    here in a state, exception and output monad: the state holds the two
    accumulators, an exception carries the state reached when it was
    raised (Python mutations are not rolled back by [except]), and the
    output lists the console messages and the requests to the node in the
    order they happen.  Of the progress bar of [tqdm] only the call of
    [len] on the range it wraps is kept; what it draws and the colour
    codes are left out. *)

From Stdlib Require Import ZArith QArith Lia.
From stdpp Require Import gmap strings list sorting.

Local Open Scope Z_scope.

(** ** Python values *)

Module Py.

(** The exceptions the program can meet.  All are subclasses of
    Python's [Exception]. *)
Inductive exn : Type :=
| ValueError
| ZeroDivisionError
| OverflowError
| ProviderError (msg : string).

(** [sys.maxsize] of a 64-bit CPython: the largest value [len] can
    return. *)
Definition maxsize : Z := 2 ^ 63 - 1.

Inductive result (A : Type) : Type :=
| Ok (a : A)
| Raise (e : exn).
Arguments Ok {A} a.
Arguments Raise {A} e.

(** A Python number: an [int] (unbounded) or a [float] (binary64, kept
    as the rational it denotes, in lowest terms). *)
Inductive num : Type :=
| Int (z : Z)
| Float (q : Q).

(** What a Python function hands back to its caller.  [Record4] is a
    value carrying the four figures of a scan. *)
Inductive value : Type :=
| None_
| Record4 (total_transactions : Z) (unique_senders : gset string)
          (engagement_ratio adoption_index : num).

(** Nearest integer to [n / d] for [0 < d], ties to even. *)
Definition round_half_even (n d : Z) : Z :=
  let q := n / d in
  match 2 * (n mod d) ?= d with
  | Lt => q
  | Gt => q + 1
  | Eq => if Z.even q then q else q + 1
  end.

(** Rounding of a positive fraction [a / d] to 53 significant bits,
    round-to-nearest-even.  [k] is the binary exponent of [a / d]. *)
Definition round53_pos (a d : Z) : Q :=
  let k0 := Z.log2 a - Z.log2 d in
  let k := if (if 0 <=? k0 then d * 2 ^ k0 <=? a else d <=? a * 2 ^ (- k0))
           then k0 else k0 - 1 in
  let e := k - 52 in
  if 0 <=? e
  then inject_Z (round_half_even a (d * 2 ^ e) * 2 ^ e)
  else Qmake (round_half_even (a * 2 ^ (- e)) d) (Z.to_pos (2 ^ (- e))).

(** The binary64 number nearest to a rational.  The exponent range is
    not modelled: the operands below are counts of transactions and of
    senders, far from overflow and underflow. *)
Definition binary64_round (x : Q) : Q :=
  let x := Qred x in
  match Qnum x with
  | 0 => 0%Q
  | Zpos p => Qred (round53_pos (Zpos p) (Zpos (Qden x)))
  | Zneg p => Qred (Qopp (round53_pos (Zpos p) (Zpos (Qden x))))
  end.

(** [a / b] on two ints: true division, correctly rounded. *)
Definition truediv (a b : Z) : result num :=
  if b =? 0 then Raise ZeroDivisionError
  else Ok (Float (binary64_round (Qdiv (inject_Z a) (inject_Z b)))).

Definition to_Q (x : num) : Q :=
  match x with
  | Int z => inject_Z z
  | Float q => q
  end.

(** [x * k] for an int [k]: int times int stays an int, otherwise the
    product is a float. *)
Definition mul_int (x : num) (k : Z) : num :=
  match x with
  | Int z => Int (z * k)
  | Float q => Float (binary64_round (q * inject_Z k))
  end.

(** [x == y] and [x > y], numerically across int and float. *)
Definition eqb (x y : num) : bool := Qeq_bool (to_Q x) (to_Q y).
Definition gtb (x y : num) : bool :=
  negb (Qle_bool (to_Q x) (to_Q y)).

End Py.

(** [range(start, stop)] over ints. *)
Definition py_range (start stop : Z) : list Z := seqZ start (stop - start).

(** [len(range(start, stop))], where [len] raises [OverflowError] on a
    range of more than [sys.maxsize] numbers. *)
Definition py_range_len (start stop : Z) : Py.result Z :=
  let n := Z.max 0 (stop - start) in
  if Py.maxsize <? n then Py.Raise Py.OverflowError else Py.Ok n.

(** ** The provider and the data it serves *)

(** A transaction as [get_block(..., full_transactions=True)] returns
    it: [tx['to']] is [None] for a contract creation. *)
Record transaction : Type := Tx {
  tx_to : option string;
  tx_from : string
}.

(** The part of [w3] the function uses.  [to_checksum_address] answers
    [None] where web3 raises [ValueError]; the two node requests answer
    [Py.Raise] where the call raises.  Historical block data is
    immutable, so the provider is a function of the block number. *)
Record provider : Type := Provider {
  to_checksum_address : string → option string;
  block_number : Py.result Z;
  get_block : Z → Py.result (list transaction)
}.

(** ** Accumulators, console and requests *)

(** The two locals the loop mutates (lines 64-65).  The third set,
    [all_time_interactors] (line 61), is never read nor written again. *)
Record locals : Type := Locals {
  period_transactions : Z;
  period_unique_interactors : gset string
}.

(** The three closing remarks (lines 120-125). *)
Inductive verdict : Type :=
| Viral
| HealthyGrowth
| CommunitySustained.

(** What the run does to the outside world, in order: a console message
    or a request to the node.  A message carries the values handed to
    its format string. *)
Inductive event : Type :=
| AddressFormatError
| HeadRequested
| ScanStarted (target_address : string) (num_blocks start_block latest_block_number : Z)
| BlockRequested (block_num : Z)
| BlockSkipped (block_num : Z) (e : Py.exn)
| Results (period_transactions total_unique_wallets : Z)
          (engagement_ratio adoption_velocity_index : Py.num)
| Conclusion (v : verdict).

(** The two locals, with ghost state: [history] lists the values the
    accumulators had before each assignment, latest first. *)
Record store : Type := Store {
  vars : locals;
  history : list locals
}.

Definition start_store : store := Store (Locals 0 ∅) [].

(** ** The monad *)

(** A computation starts from a store and yields a value or an
    exception, the store it reached, and the events it produced. *)
Definition M (A : Type) : Type := store → Py.result A * store * list event.

Global Instance M_ret : MRet M := λ A a s, (Py.Ok a, s, []).

Global Instance M_bind : MBind M := λ A B f m s,
  match m s with
  | (Py.Ok a, s', o) => let '(r, s'', o') := f a s' in (r, s'', o ++ o')
  | (Py.Raise e, s', o) => (Py.Raise e, s', o)
  end.

Definition raise {A} (e : Py.exn) : M A := λ s, (Py.Raise e, s, []).

Definition lift {A} (r : Py.result A) : M A := λ s, (r, s, []).

(** [try: m  except Exception as e: h e].  The handler starts from the
    store the exception left behind: nothing is rolled back. *)
Definition try_except {A} (m : M A) (h : Py.exn → M A) : M A := λ s,
  match m s with
  | (Py.Ok a, s', o) => (Py.Ok a, s', o)
  | (Py.Raise e, s', o) => let '(r, s'', o') := h e s' in (r, s'', o ++ o')
  end.

Definition emit (ev : event) : M unit := λ s, (Py.Ok tt, s, [ev]).

Definition read : M locals := λ s, (Py.Ok (vars s), s, []).

Definition assign (f : locals → locals) : M unit := λ s,
  (Py.Ok tt, Store (f (vars s)) (vars s :: history s), []).

Fixpoint for_each {A} (l : list A) (body : A → M unit) : M unit :=
  match l with
  | [] => mret tt
  | x :: l' => body x ;; for_each l' body
  end.

(** [tqdm(range(start, stop), ...)] (lines 68-70): the progress bar
    asks at once for the [len] of what it wraps, and iterating it then
    yields the numbers of the range.  What the bar draws is left out. *)
Definition tqdm_range (start stop : Z) : M (list Z) :=
  _ ← lift (py_range_len start stop);
  mret (py_range start stop).

(** ** The program *)

Section Program.

Variable w3 : provider.

(** [w3.to_checksum_address(raw)] *)
Definition checksum (raw : string) : M string :=
  match to_checksum_address w3 raw with
  | Some a => mret a
  | None => raise Py.ValueError
  end.

(** [w3.eth.block_number] *)
Definition eth_block_number : M Z :=
  emit HeadRequested ;; lift (block_number w3).

(** [w3.eth.get_block(block_num, full_transactions=True)] *)
Definition eth_get_block (block_num : Z) : M (list transaction) :=
  emit (BlockRequested block_num) ;; lift (get_block w3 block_num).

(** Truth value of a [str]: only the empty string is falsy. *)
Definition truthy (raw : string) : bool := negb (String.eqb raw "").

(** Lines 76-79, the body of the inner loop.  [None] is falsy, and
    [and] does not evaluate its right operand after a falsy left one. *)
Definition process_transaction (target_address : string) (tx : transaction) : M unit :=
  match tx_to tx with
  | None => mret tt
  | Some raw_to =>
      if truthy raw_to then
        to_address ← checksum raw_to;
        if String.eqb to_address target_address then
          assign (λ v, Locals (period_transactions v + 1) (period_unique_interactors v)) ;;
          from_address ← checksum (tx_from tx);
          assign (λ v, Locals (period_transactions v)
                              ({[from_address]} ∪ period_unique_interactors v))
        else mret tt
      else mret tt
  end.

(** Lines 73-83, the body of the outer loop. *)
Definition scan_block (target_address : string) (block_num : Z) : M unit :=
  try_except
    (transactions ← eth_get_block block_num;
     for_each transactions (process_transaction target_address))
    (λ e, emit (BlockSkipped block_num e)).

(** Lines 120-125. *)
Definition conclude (adoption_velocity_index : Py.num) : verdict :=
  if Py.gtb adoption_velocity_index (Py.Int 75) then Viral
  else if Py.gtb adoption_velocity_index (Py.Int 50) then HealthyGrowth
  else CommunitySustained.

(** Lines 93-125: the metrics and their report. *)
Definition report_metrics : M Py.value :=
  v ← read;
  let total_unique_wallets := Z.of_nat (size (period_unique_interactors v)) in
  engagement_ratio ←
    (if 0 <? total_unique_wallets
     then lift (Py.truediv (period_transactions v) total_unique_wallets)
     else mret (Py.Int 0));
  let known_wallets : gset string := ∅ in
  let newly_discovered_wallets := period_unique_interactors v ∖ known_wallets in
  adoption_velocity_index ←
    (if 0 <? total_unique_wallets
     then share ← lift (Py.truediv (Z.of_nat (size newly_discovered_wallets))
                                    total_unique_wallets);
          mret (Py.mul_int share 100)
     else mret (Py.Int 0));
  emit (Results (period_transactions v) total_unique_wallets
                engagement_ratio adoption_velocity_index) ;;
  emit (Conclusion (conclude adoption_velocity_index)) ;;
  mret Py.None_.

(** Lines 41-125. *)
Definition analyze_contract_pulse (contract_address : string) (num_blocks : Z) : M Py.value :=
  match to_checksum_address w3 contract_address with
  | None => emit AddressFormatError ;; mret Py.None_
  | Some target_address =>
      latest_block_number ← eth_block_number;
      let start_block := latest_block_number - num_blocks + 1 in
      emit (ScanStarted target_address num_blocks start_block latest_block_number) ;;
      assign (λ _, Locals 0 ∅) ;;
      pbar ← tqdm_range start_block (latest_block_number + 1);
      for_each pbar (scan_block target_address) ;;
      report_metrics
  end.

End Program.

(** A whole run, from a fresh store. *)
Definition run (w3 : provider) (contract_address : string) (num_blocks : Z)
  : Py.result Py.value * store * list event :=
  analyze_contract_pulse w3 contract_address num_blocks start_store.

(** The value handed back, the store at the end, the trace. *)
Definition returned {A} (r : Py.result A * store * list event) : Py.result A := r.1.1.
Definition final {A} (r : Py.result A * store * list event) : store := r.1.2.
Definition trace {A} (r : Py.result A * store * list event) : list event := r.2.

(** ** A small chain to run on *)

Module Demo.

Definition target : string := "0xABCD".
Definition S1 : string := "0xS1".
Definition S2 : string := "0xS2".

(** Canonical form: upper-case hex digits after the [0x] prefix are kept
    as they are; a string without the prefix is malformed. *)
Definition canon (raw : string) : option string :=
  if String.prefix "0x" raw then Some raw else None.

(** Head at 102.  Block 100 holds two matching transactions and a
    contract creation, block 101 one matching and one foreign
    transaction, block 102 cannot be served. *)
Definition chain : provider :=
  Provider canon (Py.Ok 102)
    (λ b, if b =? 100 then Py.Ok [Tx (Some target) S1; Tx None S2; Tx (Some target) S2]
          else if b =? 101 then Py.Ok [Tx (Some "0xFFFF") S2; Tx (Some target) S1]
          else Py.Raise (Py.ProviderError "pruned")).

(** The same chain seen through another node: block 99, below the
    window of the last three blocks, is served differently. *)
Definition other_node : provider :=
  Provider canon (Py.Ok 102)
    (λ b, if b =? 99 then Py.Ok [Tx (Some target) "0xS9"] else get_block chain b).

(** Head at 102, whose second transaction carries a recipient that is
    not an address. *)
Definition broken : provider :=
  Provider canon (Py.Ok 102)
    (λ b, if b =? 102 then Py.Ok [Tx (Some target) S1; Tx (Some "garbage") S2]
          else Py.Raise (Py.ProviderError "pruned")).

End Demo.

(** ** Reading a trace *)

(** The block numbers asked of the node, in the order asked. *)
Definition requests (evs : list event) : list Z :=
  omap (λ ev, match ev with BlockRequested b => Some b | _ => None end) evs.

(** The figures of the report, when one was printed. *)
Definition reported (evs : list event) : list (Z * Z * Py.num * Py.num) :=
  omap (λ ev, match ev with
              | Results pt tu er avi => Some (pt, tu, er, avi)
              | _ => None
              end) evs.

(** The events of one turn of the outer loop: the request, and the
    warning when the block was given up. *)
Inductive block_events (block_num : Z) : list event → Prop :=
| block_done : block_events block_num [BlockRequested block_num]
| block_skipped e :
    block_events block_num [BlockRequested block_num; BlockSkipped block_num e].

(** The store once lines 61-65 have run. *)
Definition fresh_store : store := Store (Locals 0 ∅) [Locals 0 ∅].

(** The invariant of the accumulators: no more senders than counted
    transactions. *)
Definition counted (v : locals) : Prop :=
  Z.of_nat (size (period_unique_interactors v)) ≤ period_transactions v.

Definition always_counted (s : store) : Prop :=
  counted (vars s) ∧ Forall counted (history s).


(** Two providers a scan of the last [num_blocks] blocks cannot tell
    apart: the same canonical forms, the same head, the same blocks in
    the window below that head. *)
Definition same_history (w3 w3' : provider) (num_blocks : Z) : Prop :=
  (∀ raw, to_checksum_address w3 raw = to_checksum_address w3' raw)
  ∧ block_number w3 = block_number w3'
  ∧ ∀ latest b, block_number w3 = Py.Ok latest →
                latest - num_blocks + 1 ≤ b ≤ latest →
                get_block w3 b = get_block w3' b.



(** A run that ends in an exception. *)
Definition raised (r : Py.result Py.value * store * list event) : Prop :=
  ∃ e, returned r = Py.Raise e.

(** A run that prints no report. *)
Definition no_report (r : Py.result Py.value * store * list event) : Prop :=
  reported (trace r) = [].

(** ** Reading the accumulators *)

(** What a piece of the scan adds to the accumulators: so many counted
    transactions, these senders. *)
Definition plus (v d : locals) : locals :=
  Locals (period_transactions v + period_transactions d)
         (period_unique_interactors d ∪ period_unique_interactors v).

(** [v] came no later than [v']: nothing counted in [v] is missing from
    [v']. *)
Definition below (v v' : locals) : Prop :=
  period_transactions v ≤ period_transactions v'
  ∧ period_unique_interactors v ⊆ period_unique_interactors v'.

(** A computation whose outcome and output do not depend on the store
    it starts from, and which adds the same to any accumulators. *)
Definition framed (m : M unit) : Prop :=
  ∀ s, (m s).1.1 = (m start_store).1.1
       ∧ (m s).2 = (m start_store).2
       ∧ vars (m s).1.2 = plus (vars s) (vars (m start_store).1.2).

(** Line 76 as a test: the recipient is there, is not the empty string,
    and its canonical form is the target. *)
Definition addressed_to (w3 : provider) (target_address : string)
    (tx : transaction) : bool :=
  match tx_to tx with
  | Some raw_to =>
      truthy raw_to &&
      match to_checksum_address w3 raw_to with
      | Some to_address => String.eqb to_address target_address
      | None => false
      end
  | None => false
  end.

(** A transaction on which neither call of [to_checksum_address] at
    lines 76 and 78 raises. *)
Definition clean (w3 : provider) (target_address : string)
    (tx : transaction) : bool :=
  match tx_to tx with
  | Some raw_to =>
      if truthy raw_to then
        match to_checksum_address w3 raw_to with
        | Some to_address =>
            if String.eqb to_address target_address
            then bool_decide (is_Some (to_checksum_address w3 (tx_from tx)))
            else true
        | None => false
        end
      else true
  | None => true
  end.

(** The canonical senders of the transactions addressed to the target. *)
Definition senders_of (w3 : provider) (target_address : string)
    (txs : list transaction) : gset string :=
  list_to_set
    (omap (λ tx, if addressed_to w3 target_address tx
                 then to_checksum_address w3 (tx_from tx) else None) txs).

(** What handling a list of transactions without an exception comes
    to: how many are addressed to the target, and who sent those. *)
Definition tally (w3 : provider) (target_address : string)
    (txs : list transaction) : locals :=
  Locals (Z.of_nat (length (List.filter (addressed_to w3 target_address) txs)))
         (senders_of w3 target_address txs).

(** What a transaction on which [to_checksum_address] raises leaves
    behind: one more counted transaction when it was the sender that
    did not parse (line 77 has run, line 79 has not). *)
Definition residue (w3 : provider) (target_address : string)
    (tx : transaction) : locals :=
  Locals (if addressed_to w3 target_address tx then 1 else 0) ∅.


(** The transactions of the blocks the node serves, in block order. *)
Definition served (w3 : provider) (blocks : list Z) : list transaction :=
  blocks ≫= λ b, match get_block w3 b with
                 | Py.Ok txs => txs
                 | Py.Raise _ => []
                 end.



(** ** The command line *)

Module Cli.

(** What [get_eth_connection] prints, and the one thing it does on the
    network: opening the endpoint and asking whether it answers. *)
Inductive setup_event : Type :=
| ProjectIdNotFound
| EnvFileHint
| EnvFileExample
| Dialled (url : string)
| ConnectionFailed
| Connected.

(** A [Web3] object: the calls the scan makes, and the answer of
    [is_connected()]. *)
Record web3 : Type := Web3 {
  api : provider;
  is_connected : bool
}.

Definition placeholder : string := "YOUR_INFURA_PROJECT_ID_HERE".

Definition endpoint (infura_project_id : string) : string :=
  "https://mainnet.infura.io/v3/" +:+ infura_project_id.

(** Lines 22-39.  [getenv] is the environment once [load_dotenv] has
    run, [http] builds the [Web3] object of a URL.  [not x] holds of
    [None] and of the empty string. *)
Definition get_eth_connection
    (getenv : string → option string) (http : string → web3)
  : option provider * list setup_event :=
  match getenv "INFURA_PROJECT_ID" with
  | None => (None, [ProjectIdNotFound; EnvFileHint; EnvFileExample])
  | Some infura_project_id =>
      if negb (truthy infura_project_id) || String.eqb infura_project_id placeholder
      then (None, [ProjectIdNotFound; EnvFileHint; EnvFileExample])
      else
        let w3 := http (endpoint infura_project_id) in
        if negb (is_connected w3)
        then (None, [Dialled (endpoint infura_project_id); ConnectionFailed])
        else (Some (api w3), [Dialled (endpoint infura_project_id); Connected])
  end.

(** The arguments as [parse_args] hands them over: the contract, and
    the value of [--blocks], 1000 when the option is not given. *)
Definition default_blocks : Z := 1000.

Definition blocks_arg (given : option Z) : Z :=
  match given with
  | Some n => n
  | None => default_blocks
  end.

(** Lines 128-137.  The outcome lists what the set-up did, then the
    outcome of the scan when there was a connection to scan with. *)
Definition main (getenv : string → option string) (http : string → web3)
    (contract : string) (blocks : option Z)
  : list setup_event * option (Py.result Py.value * store * list event) :=
  let '(web3_connection, setup) := get_eth_connection getenv http in
  match web3_connection with
  | Some w3 => (setup, Some (run w3 contract (blocks_arg blocks)))
  | None => (setup, None)
  end.

(** An environment holding one project id, and a network where only
    that project's endpoint answers, with the sample chain. *)
Definition demo_env (name : string) : option string :=
  if String.eqb name "INFURA_PROJECT_ID" then Some "abcdef1234567890" else None.

Definition demo_http (url : string) : web3 :=
  Web3 Demo.chain (String.eqb url (endpoint "abcdef1234567890")).

End Cli.

(** Unfolds the operations of the monad. *)
Ltac unfold_M :=
  unfold mbind, M_bind, mret, M_ret, raise, lift, emit, read, assign,
    try_except in *.

(** ** Sample runs *)

Example demo_run :
  returned (run Demo.chain Demo.target 3) = Py.Ok Py.None_ ∧
  trace (run Demo.chain Demo.target 3) = [HeadRequested; ScanStarted Demo.target 3 100 102;
           BlockRequested 100; BlockRequested 101; BlockRequested 102;
           BlockSkipped 102 (Py.ProviderError "pruned");
           Results 3 2 (Py.Float (3 # 2)) (Py.Float 100); Conclusion Viral].
Proof. split; vm_compute; reflexivity. Qed.

Example round_third :
  Py.binary64_round (1 # 3) = (6004799503160661 # 18014398509481984)%Q.
Proof. vm_compute. reflexivity. Qed.

Example round_three_halves : Py.truediv 3 2 = Py.Ok (Py.Float (3 # 2)).
Proof. vm_compute. reflexivity. Qed.

Example round_above_2_53 :
  Py.binary64_round (inject_Z 9007199254740993) = inject_Z 9007199254740992
  ∧ Py.binary64_round (inject_Z 9007199254740995) = inject_Z 9007199254740996.
Proof. split; vm_compute; reflexivity. Qed.

Example round_tenth :
  Py.binary64_round (1 # 10) = (3602879701896397 # 36028797018963968)%Q.
Proof. vm_compute. reflexivity. Qed.

(** ** Laws of the monad *)

Section Laws.

Context {A : Type}.

Lemma for_each_nil (body : A → M unit) s :
  for_each [] body s = (Py.Ok tt, s, []).
Proof. reflexivity. Qed.

Lemma for_each_cons (body : A → M unit) x l s :
  for_each (x :: l) body s =
  match body x s with
  | (Py.Ok _, s', o) =>
      let '(r, s'', o') := for_each l body s' in (r, s'', o ++ o')
  | (Py.Raise e, s', o) => (Py.Raise e, s', o)
  end.
Proof. reflexivity. Qed.

(** A loop whose body always returns, returns. *)
Lemma for_each_returns (body : A → M unit) l :
  (∀ x s, ∃ s' o, body x s = (Py.Ok tt, s', o)) →
  ∀ s, ∃ s' o, for_each l body s = (Py.Ok tt, s', o).
Proof.
  intros Hbody. induction l as [|x l IH]; intros s.
  - exists s, []. reflexivity.
  - rewrite for_each_cons. destruct (Hbody x s) as (s1 & o1 & ->).
    destruct (IH s1) as (s2 & o2 & ->). eauto.
Qed.

(** An invariant of the store kept by the body, whatever its outcome,
    is kept by the loop. *)
Lemma for_each_preserves (P : store → Prop) (body : A → M unit) l :
  (∀ x s, P s → P (body x s).1.2) →
  ∀ s, P s → P (for_each l body s).1.2.
Proof.
  intros Hbody. induction l as [|x l IH]; intros s Hs; [exact Hs|].
  rewrite for_each_cons. specialize (Hbody x s Hs).
  destruct (body x s) as [[[[]|e] s1] o1]; simpl in *; [|exact Hbody].
  specialize (IH s1 Hbody).
  destruct (for_each l body s1) as [[r s2] o2]; exact IH.
Qed.

End Laws.

(** ** The inner loop *)

Section Scan.

Variable w3 : provider.
Variable target_address : string.

(** Handling a transaction prints nothing and asks the node nothing. *)
Lemma process_transaction_silent tx s :
  (process_transaction w3 target_address tx s).2 = [].
Proof.
  unfold process_transaction, checksum.
  destruct (tx_to tx) as [raw_to|]; [|reflexivity].
  destruct (truthy raw_to); [|reflexivity]. unfold_M.
  destruct (to_checksum_address w3 raw_to) as [to_address|]; [|reflexivity].
  destruct (String.eqb to_address target_address); [|reflexivity].
  destruct (to_checksum_address w3 (tx_from tx)); reflexivity.
Qed.

Lemma process_transactions_silent txs s :
  (for_each txs (process_transaction w3 target_address) s).2 = [].
Proof.
  revert s. induction txs as [|tx txs IH]; intros s; [reflexivity|].
  rewrite for_each_cons.
  pose proof (process_transaction_silent tx s) as Htx.
  destruct (process_transaction w3 target_address tx s) as [[[[]|e] s1] o1];
    simpl in Htx; subst o1; [|reflexivity].
  specialize (IH s1).
  destruct (for_each txs (process_transaction w3 target_address) s1)
    as [[r s2] o2]; simpl in *; exact IH.
Qed.

Lemma counted_add_sender (x : string) v :
  counted v →
  Z.of_nat (size ({[x]} ∪ period_unique_interactors v)) ≤ period_transactions v + 1.
Proof.
  unfold counted. intros Hv. rewrite size_union_alt, size_singleton.
  assert (size (period_unique_interactors v ∖ {[x]})
          ≤ size (period_unique_interactors v))%nat as Hle
    by (apply subseteq_size, subseteq_difference_l; reflexivity).
  lia.
Qed.

(** Whether it returns or raises, a transaction leaves every value of
    the accumulators, past and present, counted. *)
Lemma process_transaction_counted tx s :
  always_counted s →
  always_counted (process_transaction w3 target_address tx s).1.2.
Proof.
  intros [Hv Hh]. unfold process_transaction, checksum.
  destruct (tx_to tx) as [raw_to|]; [|split; assumption].
  destruct (truthy raw_to); [|split; assumption]. unfold_M.
  destruct (to_checksum_address w3 raw_to) as [to_address|];
    [|split; assumption].
  destruct (String.eqb to_address target_address); [|split; assumption].
  assert (counted (Locals (period_transactions (vars s) + 1)
                          (period_unique_interactors (vars s)))) as Hv1.
  { unfold counted in *. simpl. lia. }
  destruct (to_checksum_address w3 (tx_from tx)) as [from_address|]; simpl.
  - split; [|repeat constructor; assumption].
    unfold counted. simpl. apply counted_add_sender, Hv.
  - split; [assumption|constructor; assumption].
Qed.

End Scan.

(** ** The outer loop *)

Section Blocks.

Variable w3 : provider.
Variable target_address : string.

(** A block the node cannot serve: the request, the warning, and the
    store as it was. *)
Lemma scan_block_fetch_failed block_num e s :
  get_block w3 block_num = Py.Raise e →
  scan_block w3 target_address block_num s =
  (Py.Ok tt, s, [BlockRequested block_num; BlockSkipped block_num e]).
Proof.
  intros Hget. unfold scan_block, eth_get_block. unfold_M.
  rewrite Hget. reflexivity.
Qed.

(** A block the node serves: its transactions are handled in order; an
    exception among them ends the block with a warning and keeps what
    the earlier transactions did to the store. *)
Lemma scan_block_fetched block_num txs s :
  get_block w3 block_num = Py.Ok txs →
  scan_block w3 target_address block_num s =
  match for_each txs (process_transaction w3 target_address) s with
  | (Py.Ok _, s', _) => (Py.Ok tt, s', [BlockRequested block_num])
  | (Py.Raise e, s', _) =>
      (Py.Ok tt, s', [BlockRequested block_num; BlockSkipped block_num e])
  end.
Proof.
  intros Hget. unfold scan_block, eth_get_block. unfold_M.
  rewrite Hget.
  pose proof (process_transactions_silent w3 target_address txs s) as Hsilent.
  destruct (for_each txs (process_transaction w3 target_address) s)
    as [[[[]|e] s1] o1]; simpl in Hsilent; subst o1; reflexivity.
Qed.

Lemma scan_block_returns block_num s :
  ∃ s' o, scan_block w3 target_address block_num s = (Py.Ok tt, s', o)
          ∧ block_events block_num o.
Proof.
  destruct (get_block w3 block_num) as [txs|e] eqn:Hget.
  - rewrite (scan_block_fetched _ _ _ Hget).
    destruct (for_each txs (process_transaction w3 target_address) s)
      as [[[[]|e] s1] o1]; eauto using block_events.
  - rewrite (scan_block_fetch_failed _ _ _ Hget). eauto using block_events.
Qed.

Lemma scan_block_counted block_num s :
  always_counted s →
  always_counted (scan_block w3 target_address block_num s).1.2.
Proof.
  intros Hs. destruct (get_block w3 block_num) as [txs|e] eqn:Hget.
  - rewrite (scan_block_fetched _ _ _ Hget).
    pose proof (for_each_preserves always_counted
                  (process_transaction w3 target_address) txs
                  (process_transaction_counted w3 target_address) s Hs) as Hloop.
    destruct (for_each txs (process_transaction w3 target_address) s)
      as [[[[]|e] s1] o1]; exact Hloop.
  - rewrite (scan_block_fetch_failed _ _ _ Hget). exact Hs.
Qed.

(** The loop over a list of block numbers returns; it asks for each
    number once, in the order of the list, prints no report, and warns
    about every block the node could not serve. *)
Lemma scan_loop blocks s :
  ∃ s' o,
    for_each blocks (scan_block w3 target_address) s = (Py.Ok tt, s', o)
    ∧ requests o = blocks
    ∧ reported o = []
    ∧ ∀ b e, b ∈ blocks → get_block w3 b = Py.Raise e → BlockSkipped b e ∈ o.
Proof.
  revert s. induction blocks as [|b blocks IH]; intros s.
  - exists s, []. repeat split. intros b e Hb. inversion Hb.
  - rewrite for_each_cons.
    destruct (scan_block_returns b s) as (s1 & o1 & Hb & Hev).
    destruct (IH s1) as (s2 & o2 & Hrest & Hreq & Hrep & Hskip).
    rewrite Hb, Hrest. exists s2, (o1 ++ o2). split; [reflexivity|].
    unfold requests, reported in *. rewrite !omap_app, Hreq, Hrep.
    split; [|split].
    + destruct Hev; reflexivity.
    + destruct Hev; reflexivity.
    + intros b' e Hin Hget. rewrite elem_of_app.
      apply elem_of_cons in Hin as [->|Hin]; [left|right; eauto].
      rewrite (scan_block_fetch_failed _ _ _ Hget) in Hb.
      injection Hb as _ <-. set_solver.
Qed.

Lemma scan_loop_counted blocks s :
  always_counted s →
  always_counted (for_each blocks (scan_block w3 target_address) s).1.2.
Proof. apply for_each_preserves. intros b. apply scan_block_counted. Qed.

End Blocks.

(** ** The metrics *)

Lemma truediv_self n : n ≠ 0 → Py.truediv n n = Py.Ok (Py.Float 1).
Proof.
  intros Hn. unfold Py.truediv. rewrite (proj2 (Z.eqb_neq n 0) Hn).
  do 2 f_equal. unfold Py.binary64_round.
  rewrite (Qred_complete (inject_Z n / inject_Z n) 1); [reflexivity|].
  apply Qmult_inv_r. unfold Qeq. simpl. lia.
Qed.

Lemma truediv_nonzero a b : b ≠ 0 → ∃ q, Py.truediv a b = Py.Ok (Py.Float q).
Proof.
  intros Hb. unfold Py.truediv. rewrite (proj2 (Z.eqb_neq b 0) Hb). eauto.
Qed.

(** The report never raises, leaves the store alone and prints the two
    counts with the two ratios.  With no sender both ratios are the int
    [0]; with senders the first is the rounded quotient and the second
    is [100.0]. *)
Lemma report_metrics_spec s :
  let pt := period_transactions (vars s) in
  let tu := Z.of_nat (size (period_unique_interactors (vars s))) in
  ∃ er avi,
    report_metrics s =
      (Py.Ok Py.None_, s, [Results pt tu er avi; Conclusion (conclude avi)])
    ∧ (tu = 0 → er = Py.Int 0 ∧ avi = Py.Int 0)
    ∧ (0 < tu → Py.truediv pt tu = Py.Ok er ∧ avi = Py.Float 100).
Proof.
  intros pt tu. unfold report_metrics. unfold_M. fold pt tu.
  rewrite difference_empty_L. fold tu.
  destruct (0 <? tu) eqn:Htu.
  - apply Z.ltb_lt in Htu.
    destruct (truediv_nonzero pt tu) as [q Hq]; [lia|].
    rewrite Hq, truediv_self by lia. simpl.
    exists (Py.Float q), (Py.Float 100). split; [reflexivity|].
    split; [lia|]. intros _. split; reflexivity.
  - apply Z.ltb_ge in Htu. exists (Py.Int 0), (Py.Int 0).
    split; [reflexivity|]. split; [auto|lia].
Qed.

(** ** The three ways a run can go *)

Section Runs.

Variable w3 : provider.
Variable contract_address : string.
Variable num_blocks : Z.

(** Line 49: the address does not parse. *)
Lemma run_malformed :
  to_checksum_address w3 contract_address = None →
  run w3 contract_address num_blocks =
  (Py.Ok Py.None_, start_store, [AddressFormatError]).
Proof.
  intros Haddr. unfold run, analyze_contract_pulse. rewrite Haddr. reflexivity.
Qed.

(** Line 53 raises: nothing catches it. *)
Lemma run_head_failed target_address e :
  to_checksum_address w3 contract_address = Some target_address →
  block_number w3 = Py.Raise e →
  run w3 contract_address num_blocks =
  (Py.Raise e, start_store, [HeadRequested]).
Proof.
  intros Haddr Hhead. unfold run, analyze_contract_pulse, eth_block_number.
  rewrite Haddr. unfold_M. rewrite Hhead. reflexivity.
Qed.

Lemma window_len latest :
  py_range_len (latest - num_blocks + 1) (latest + 1)
  = if Py.maxsize <? Z.max 0 num_blocks
    then Py.Raise Py.OverflowError else Py.Ok (Z.max 0 num_blocks).
Proof.
  unfold py_range_len.
  replace (latest + 1 - (latest - num_blocks + 1)) with num_blocks by lia.
  reflexivity.
Qed.

(** Line 68 raises: the window has more numbers than [len] can tell. *)
Lemma run_overflow target_address latest_block_number :
  to_checksum_address w3 contract_address = Some target_address →
  block_number w3 = Py.Ok latest_block_number →
  Py.maxsize < num_blocks →
  run w3 contract_address num_blocks =
  (Py.Raise Py.OverflowError, fresh_store,
   [HeadRequested;
    ScanStarted target_address num_blocks
                (latest_block_number - num_blocks + 1) latest_block_number]).
Proof.
  intros Haddr Hhead Hbig.
  unfold run, analyze_contract_pulse, eth_block_number, tqdm_range.
  rewrite Haddr. unfold_M. rewrite Hhead. cbv beta iota zeta.
  rewrite window_len.
  rewrite (proj2 (Z.ltb_lt Py.maxsize (Z.max 0 num_blocks))) by lia.
  reflexivity.
Qed.

(** Otherwise the window is scanned and the report printed. *)
Lemma run_scanned target_address latest_block_number :
  to_checksum_address w3 contract_address = Some target_address →
  block_number w3 = Py.Ok latest_block_number →
  num_blocks ≤ Py.maxsize →
  let start_block := latest_block_number - num_blocks + 1 in
  ∃ s o er avi,
    for_each (py_range start_block (latest_block_number + 1))
             (scan_block w3 target_address) fresh_store = (Py.Ok tt, s, o)
    ∧ requests o = py_range start_block (latest_block_number + 1)
    ∧ reported o = []
    ∧ (∀ b e, b ∈ py_range start_block (latest_block_number + 1) →
              get_block w3 b = Py.Raise e → BlockSkipped b e ∈ o)
    ∧ run w3 contract_address num_blocks =
      (Py.Ok Py.None_, s,
       HeadRequested
       :: ScanStarted target_address num_blocks start_block latest_block_number
       :: o ++ [Results (period_transactions (vars s))
                        (Z.of_nat (size (period_unique_interactors (vars s))))
                        er avi;
                Conclusion (conclude avi)])
    ∧ (size (period_unique_interactors (vars s)) = 0%nat →
       er = Py.Int 0 ∧ avi = Py.Int 0)
    ∧ ((0 < size (period_unique_interactors (vars s)))%nat →
       Py.truediv (period_transactions (vars s))
                  (Z.of_nat (size (period_unique_interactors (vars s)))) = Py.Ok er
       ∧ avi = Py.Float 100).
Proof.
  intros Haddr Hhead Hbound start_block.
  destruct (scan_loop w3 target_address
              (py_range start_block (latest_block_number + 1)) fresh_store)
    as (s & o & Hloop & Hreq & Hnone & Hskip).
  destruct (report_metrics_spec s) as (er & avi & Hrep & Hzero & Hpos).
  exists s, o, er, avi. do 4 (split; [assumption|]). split; [|split].
  - unfold run, analyze_contract_pulse, eth_block_number, tqdm_range.
    rewrite Haddr. unfold_M. rewrite Hhead. cbv beta iota zeta.
    rewrite window_len.
    assert ((Py.maxsize <? Z.max 0 num_blocks) = false) as ->
      by (apply Z.ltb_ge; unfold Py.maxsize in *; lia).
    simpl. fold start_block.
    change (Store (Locals 0 ∅) [Locals 0 ∅]) with fresh_store.
    rewrite Hloop, Hrep. reflexivity.
  - intros Hsize. apply Hzero. lia.
  - intros Hsize. apply Hpos. lia.
Qed.

End Runs.

(** ** What a run hands back and prints *)


Lemma reported_of_run t n start latest o pt tu er avi v :
  reported o = [] →
  reported (HeadRequested :: ScanStarted t n start latest
            :: o ++ [Results pt tu er avi; Conclusion v]) = [(pt, tu, er, avi)].
Proof. unfold reported. simpl. rewrite omap_app. intros ->. reflexivity. Qed.

Lemma py_range_window latest n :
  py_range (latest - n + 1) (latest + 1) = seqZ (latest - n + 1) n.
Proof. unfold py_range. f_equal. lia. Qed.









(** C4, as the claim states it, fails: on a target address that does
    not parse the call raises nothing; it hands back [None], as a
    finished scan does. *)
Lemma malformed_address_raises_nothing :
  to_checksum_address Demo.chain "ABCD" = None
  ∧ returned (run Demo.chain "ABCD" 3) = Py.Ok Py.None_
  ∧ ¬ raised (run Demo.chain "ABCD" 3)
  ∧ returned (run Demo.chain "ABCD" 3) = returned (run Demo.chain Demo.target 3).
Proof.
  assert (returned (run Demo.chain "ABCD" 3) = Py.Ok Py.None_) as Hret
    by (vm_compute; reflexivity).
  split; [reflexivity|]. split; [exact Hret|]. split.
  - intros [e He]. rewrite Hret in He. discriminate He.
  - vm_compute. reflexivity.
Qed.

(** C4 (amended): a target address that does not parse ends the call at
    once, without an exception: the address error message is the only
    thing printed and the call returns [None].  The head is not asked
    for, no block is requested, no report is printed and the
    accumulators are never touched. *)
Theorem malformed_address_stops_before_any_request
    w3 contract_address num_blocks :
  to_checksum_address w3 contract_address = None →
  let r := run w3 contract_address num_blocks in
  trace r = [AddressFormatError]
  ∧ (HeadRequested ∉ trace r)
  ∧ requests (trace r) = []
  ∧ no_report r
  ∧ returned r = Py.Ok Py.None_
  ∧ final r = start_store.
Proof.
  intros Haddr. simpl. rewrite (run_malformed _ _ _ Haddr).
  unfold no_report, trace, returned, final. simpl.
  repeat split. intros Hin. apply list_elem_of_singleton in Hin. discriminate Hin.
Qed.

Lemma malformed_address_stops_before_any_request_witness :
  trace (run Demo.chain "ABCD" 3) = [AddressFormatError]
  ∧ (HeadRequested ∉ trace (run Demo.chain "ABCD" 3))
  ∧ requests (trace (run Demo.chain "ABCD" 3)) = []
  ∧ no_report (run Demo.chain "ABCD" 3)
  ∧ returned (run Demo.chain "ABCD" 3) = Py.Ok Py.None_
  ∧ final (run Demo.chain "ABCD" 3) = start_store.
Proof.
  apply (malformed_address_stops_before_any_request Demo.chain "ABCD" 3).
  reflexivity.
Defined.

(** ** The window *)




(** ** The accumulators *)

Lemma counted_zero : counted (Locals 0 ∅).
Proof.
  unfold counted. cbn [period_transactions period_unique_interactors].
  rewrite size_empty. lia.
Qed.

Lemma start_store_counted : always_counted start_store.
Proof. split; [exact counted_zero|constructor]. Qed.

Lemma fresh_store_counted : always_counted fresh_store.
Proof. split; [|constructor; [|constructor]]; exact counted_zero. Qed.

(** C6: whatever the provider, the address and the window, the
    accumulators satisfy [|unique senders| <= transactions] at the end
    of the run and had done so before every assignment made during it. *)
Theorem senders_never_exceed_transactions w3 contract_address num_blocks :
  let s := final (run w3 contract_address num_blocks) in
  Z.of_nat (size (period_unique_interactors (vars s))) ≤ period_transactions (vars s)
  ∧ Forall (λ v, Z.of_nat (size (period_unique_interactors v))
                  ≤ period_transactions v) (history s).
Proof.
  cbv zeta. change (always_counted (final (run w3 contract_address num_blocks))).
  destruct (to_checksum_address w3 contract_address) as [t|] eqn:Haddr.
  - destruct (block_number w3) as [latest|e] eqn:Hhead.
    + destruct (Z.le_gt_cases num_blocks Py.maxsize) as [Hbound|Hbig];
        [|rewrite (run_overflow _ _ _ _ _ Haddr Hhead Hbig);
          exact fresh_store_counted].
      destruct (run_scanned w3 contract_address num_blocks _ _ Haddr Hhead Hbound)
        as (s & o & er & avi & Hloop & _ & _ & _ & Hrun & _).
      rewrite Hrun. unfold final. cbn [fst snd].
      pose proof (scan_loop_counted w3 t
                    (py_range (latest - num_blocks + 1) (latest + 1))
                    fresh_store fresh_store_counted) as Hinv.
      rewrite Hloop in Hinv. exact Hinv.
    + rewrite (run_head_failed _ _ _ _ _ Haddr Hhead). exact start_store_counted.
  - rewrite (run_malformed _ _ _ Haddr). exact start_store_counted.
Qed.

Example demo_history :
  history (final (run Demo.chain Demo.target 3)) =
  [Locals 3 {[Demo.S1; Demo.S2]}; Locals 2 {[Demo.S1; Demo.S2]};
   Locals 2 {[Demo.S1]}; Locals 1 {[Demo.S1]}; Locals 1 ∅; Locals 0 ∅;
   Locals 0 ∅].
Proof. vm_compute. reflexivity. Qed.

(** ** The two ratios *)

(** A run that ends with a sender has gone through the window. *)
Lemma senders_imply_scanned w3 contract_address num_blocks target_address latest :
  to_checksum_address w3 contract_address = Some target_address →
  block_number w3 = Py.Ok latest →
  (0 < size (period_unique_interactors
               (vars (final (run w3 contract_address num_blocks)))))%nat →
  num_blocks ≤ Py.maxsize.
Proof.
  intros Haddr Hhead Hsize.
  destruct (Z.le_gt_cases num_blocks Py.maxsize) as [Hbound|Hbig]; [exact Hbound|].
  rewrite (run_overflow _ _ _ _ _ Haddr Hhead Hbig) in Hsize.
  unfold final in Hsize.
  cbn [fst snd vars fresh_store period_unique_interactors] in Hsize.
  rewrite size_empty in Hsize. lia.
Qed.



(** C8: the set of known wallets being empty (line 102), a scan that
    ends with at least one unique sender reports an adoption index of
    exactly [100.0]. *)
Theorem some_sender_gives_full_adoption
    w3 contract_address num_blocks target_address latest :
  to_checksum_address w3 contract_address = Some target_address →
  block_number w3 = Py.Ok latest →
  (0 < size (period_unique_interactors
               (vars (final (run w3 contract_address num_blocks)))))%nat →
  let r := run w3 contract_address num_blocks in
  ∃ er avi,
    reported (trace r)
    = [(period_transactions (vars (final r)),
        Z.of_nat (size (period_unique_interactors (vars (final r)))), er, avi)]
    ∧ avi = Py.Float 100
    ∧ Py.eqb avi (Py.Float 100) = true.
Proof.
  intros Haddr Hhead Hsome. cbv zeta.
  pose proof (senders_imply_scanned _ _ _ _ _ Haddr Hhead Hsome) as Hbound.
  revert Hsome.
  destruct (run_scanned w3 contract_address num_blocks _ _ Haddr Hhead Hbound)
    as (s & o & er & avi & _ & _ & Hnone & _ & Hrun & _ & Hpos).
  rewrite Hrun. unfold final, trace. cbn [fst snd]. intros Hsize.
  destruct (Hpos Hsize) as [_ ->]. exists er, (Py.Float 100).
  split; [apply reported_of_run, Hnone|]. split; reflexivity.
Qed.

Lemma some_sender_gives_full_adoption_witness :
  ∃ er avi,
    reported (trace (run Demo.chain Demo.target 3))
    = [(period_transactions (vars (final (run Demo.chain Demo.target 3))),
        Z.of_nat (size (period_unique_interactors
                          (vars (final (run Demo.chain Demo.target 3))))),
        er, avi)]
    ∧ avi = Py.Float 100
    ∧ Py.eqb avi (Py.Float 100) = true.
Proof.
  apply (some_sender_gives_full_adoption Demo.chain Demo.target 3 Demo.target 102);
    [reflexivity | reflexivity | vm_compute; lia].
Defined.

(** ** Two runs over the same history *)

Lemma for_each_ext {A} (f g : A → M unit) l :
  (∀ x, x ∈ l → ∀ s, f x s = g x s) →
  ∀ s, for_each l f s = for_each l g s.
Proof.
  induction l as [|x l IH]; intros Hfg s; [reflexivity|].
  rewrite !for_each_cons, (Hfg x) by left.
  destruct (g x s) as [[[[]|e] s1] o1]; [|reflexivity].
  rewrite IH; [reflexivity|]. intros y Hy. apply Hfg. right. exact Hy.
Qed.

Section Agreement.

Variables w3 w3' : provider.
Hypothesis same_canon :
  ∀ raw, to_checksum_address w3 raw = to_checksum_address w3' raw.

Lemma checksum_agree raw : checksum w3 raw = checksum w3' raw.
Proof. unfold checksum. rewrite same_canon. reflexivity. Qed.

Lemma process_transaction_agree target_address tx s :
  process_transaction w3 target_address tx s
  = process_transaction w3' target_address tx s.
Proof.
  unfold process_transaction.
  rewrite (checksum_agree (tx_from tx)).
  destruct (tx_to tx) as [raw_to|]; [|reflexivity].
  rewrite (checksum_agree raw_to). reflexivity.
Qed.

Lemma scan_block_agree target_address block_num s :
  get_block w3 block_num = get_block w3' block_num →
  scan_block w3 target_address block_num s
  = scan_block w3' target_address block_num s.
Proof.
  intros Hget. unfold scan_block, eth_get_block. unfold_M. rewrite Hget.
  destruct (get_block w3' block_num) as [txs|e]; [|reflexivity].
  rewrite (for_each_ext (process_transaction w3 target_address)
             (process_transaction w3' target_address)); [reflexivity|].
  intros tx _ s'. apply process_transaction_agree.
Qed.

End Agreement.

(** C9: the block data being a fixed function of the block number, two
    runs with the same target address over providers that agree on the
    canonical forms, the head and the blocks of the window give the same
    outcome: the same return value, the same accumulators (count and
    set of senders, with their history) and the same trace, hence the
    same reported ratios. *)
Theorem same_history_same_outcome w3 w3' contract_address num_blocks :
  same_history w3 w3' num_blocks →
  run w3 contract_address num_blocks = run w3' contract_address num_blocks.
Proof.
  intros (Hcanon & Hhead & Hblocks).
  unfold run, analyze_contract_pulse, eth_block_number, tqdm_range.
  rewrite <- Hcanon.
  destruct (to_checksum_address w3 contract_address) as [t|]; [|reflexivity].
  unfold_M. rewrite <- Hhead.
  destruct (block_number w3) as [latest|e] eqn:Hlatest; [|reflexivity].
  cbv beta iota zeta.
  destruct (py_range_len (latest - num_blocks + 1) (latest + 1)) as [len|e];
    [|reflexivity].
  cbv beta iota zeta. rewrite py_range_window.
  rewrite (for_each_ext (scan_block w3 t) (scan_block w3' t)); [reflexivity|].
  intros b Hb s. apply scan_block_agree; [exact Hcanon|].
  apply elem_of_seqZ in Hb. apply (Hblocks latest); [reflexivity|lia].
Qed.

Lemma same_history_same_outcome_witness :
  get_block Demo.chain 99 ≠ get_block Demo.other_node 99
  ∧ run Demo.chain Demo.target 3 = run Demo.other_node Demo.target 3.
Proof.
  split; [discriminate|].
  apply (same_history_same_outcome Demo.chain Demo.other_node Demo.target 3).
  split; [reflexivity|]. split; [reflexivity|].
  intros latest b Hlatest Hb. injection Hlatest as <-.
  unfold Demo.other_node. cbn [get_block].
  destruct (b =? 99) eqn:Hb99; [|reflexivity].
  apply Z.eqb_eq in Hb99. lia.
Defined.

(** ** Contract creations *)

(** C10: a transaction whose [to] is [None] is passed over, whatever the
    provider would make of its sender: nothing is canonicalized, nothing
    is raised, the counter and the set of senders stay as they were and
    nothing is printed; a list of transactions is handled as if such
    transactions were not in it. *)
Theorem creation_is_skipped w3 target_address tx :
  tx_to tx = None →
  (∀ s, process_transaction w3 target_address tx s = (Py.Ok tt, s, []))
  ∧ (∀ w3', process_transaction w3' target_address tx
            = process_transaction w3 target_address tx)
  ∧ (∀ before after s,
       for_each (before ++ tx :: after) (process_transaction w3 target_address) s
       = for_each (before ++ after) (process_transaction w3 target_address) s).
Proof.
  intros Hto.
  assert (∀ p s, process_transaction p target_address tx s = (Py.Ok tt, s, []))
    as Hskip by (intros p s; unfold process_transaction; rewrite Hto; reflexivity).
  split; [apply Hskip|]. split.
  - intros w3'. unfold process_transaction. rewrite Hto. reflexivity.
  - induction before as [|x before IH]; intros after s.
    + cbn [app]. rewrite for_each_cons, Hskip.
      destruct (for_each after (process_transaction w3 target_address) s)
        as [[r s'] o]. reflexivity.
    + cbn [app]. rewrite !for_each_cons.
      destruct (process_transaction w3 target_address x s)
        as [[[[]|e] s1] o1]; [|reflexivity].
      rewrite IH. reflexivity.
Qed.

Lemma creation_is_skipped_witness :
  (∀ s, process_transaction Demo.chain Demo.target (Tx None "not an address") s
        = (Py.Ok tt, s, []))
  ∧ (∀ w3', process_transaction w3' Demo.target (Tx None "not an address")
            = process_transaction Demo.chain Demo.target (Tx None "not an address"))
  ∧ (∀ before after s,
       for_each (before ++ Tx None "not an address" :: after)
                (process_transaction Demo.chain Demo.target) s
       = for_each (before ++ after) (process_transaction Demo.chain Demo.target) s).
Proof.
  apply (creation_is_skipped Demo.chain Demo.target (Tx None "not an address")).
  reflexivity.
Defined.

(** ** Blocks that fail *)





(** ** More on the trace of a run *)






(** An exception out of [w3.eth.block_number] (line 53) is caught by
    nothing: the run ends with it, having asked for the head and
    printed neither the opening message nor a report. *)
Theorem head_failure_ends_the_run
    w3 contract_address num_blocks target_address e :
  to_checksum_address w3 contract_address = Some target_address →
  block_number w3 = Py.Raise e →
  let r := run w3 contract_address num_blocks in
  returned r = Py.Raise e
  ∧ trace r = [HeadRequested]
  ∧ requests (trace r) = []
  ∧ no_report r.
Proof.
  intros Haddr Hhead. cbv zeta.
  rewrite (run_head_failed _ _ _ _ _ Haddr Hhead).
  repeat split.
Qed.

Lemma head_failure_ends_the_run_witness :
  let w3 := Provider Demo.canon (Py.Raise (Py.ProviderError "timeout"))
                     (get_block Demo.chain) in
  returned (run w3 Demo.target 3) = Py.Raise (Py.ProviderError "timeout")
  ∧ trace (run w3 Demo.target 3) = [HeadRequested]
  ∧ requests (trace (run w3 Demo.target 3)) = []
  ∧ no_report (run w3 Demo.target 3).
Proof.
  apply (head_failure_ends_the_run
           (Provider Demo.canon (Py.Raise (Py.ProviderError "timeout"))
                     (get_block Demo.chain))
           Demo.target 3 Demo.target (Py.ProviderError "timeout"));
    reflexivity.
Defined.





(** ** How the accumulators grow *)

Lemma below_refl v : below v v.
Proof. split; reflexivity. Qed.

Lemma below_trans v1 v2 v3 : below v1 v2 → below v2 v3 → below v1 v3.
Proof. intros [H1 H1'] [H2 H2']. split; [lia|set_solver]. Qed.

Lemma grow_step (f : locals → locals) s :
  (∀ v, below v (f v)) →
  StronglySorted (λ later earlier, below earlier later) (vars s :: history s) →
  StronglySorted (λ later earlier, below earlier later)
                 (f (vars s) :: vars s :: history s).
Proof.
  intros Hf Hsorted. constructor; [exact Hsorted|].
  constructor; [apply Hf|].
  apply StronglySorted_inv in Hsorted as [_ Hall].
  eapply Forall_impl; [exact Hall|]. intros v Hv.
  eapply below_trans; [exact Hv|apply Hf].
Qed.

Lemma process_transaction_grows w3 target_address tx s :
  StronglySorted (λ later earlier, below earlier later) (vars s :: history s) →
  let s' := (process_transaction w3 target_address tx s).1.2 in
  StronglySorted (λ later earlier, below earlier later) (vars s' :: history s').
Proof.
  intros Hs. cbv zeta. unfold process_transaction, checksum.
  destruct (tx_to tx) as [raw_to|]; [|exact Hs].
  destruct (truthy raw_to); [|exact Hs]. unfold_M.
  destruct (to_checksum_address w3 raw_to) as [to_address|]; [|exact Hs].
  destruct (String.eqb to_address target_address); [|exact Hs].
  pose proof (grow_step
    (λ v, Locals (period_transactions v + 1) (period_unique_interactors v)) s)
    as Hincr.
  lapply Hincr; [clear Hincr; intros Hincr|intros v; split; simpl; [lia|reflexivity]].
  specialize (Hincr Hs).
  destruct (to_checksum_address w3 (tx_from tx)) as [from_address|];
    cbn [fst snd vars history]; [|exact Hincr].
  apply (grow_step
    (λ v, Locals (period_transactions v)
                 ({[from_address]} ∪ period_unique_interactors v))
    (Store (Locals (period_transactions (vars s) + 1)
                   (period_unique_interactors (vars s)))
           (vars s :: history s)));
    [|exact Hincr].
  intros v. split; simpl; [lia|apply union_subseteq_r].
Qed.

(** During a run the counter never goes down and no sender ever leaves
    the set: of any two values the accumulators take, the earlier has
    the smaller or equal count and a subset of the senders. *)
Theorem accumulators_only_grow w3 contract_address num_blocks :
  let s := final (run w3 contract_address num_blocks) in
  StronglySorted
    (λ later earlier,
       period_transactions earlier ≤ period_transactions later
       ∧ period_unique_interactors earlier ⊆ period_unique_interactors later)
    (vars s :: history s).
Proof.
  cbv zeta.
  change (StronglySorted (λ later earlier, below earlier later)
            (vars (final (run w3 contract_address num_blocks))
             :: history (final (run w3 contract_address num_blocks)))).
  assert (StronglySorted (λ later earlier, below earlier later)
            (vars start_store :: history start_store)) as Hstart
    by (repeat constructor).
  assert (StronglySorted (λ later earlier, below earlier later)
            (vars fresh_store :: history fresh_store)) as Hfresh
    by (repeat constructor; apply below_refl).
  destruct (to_checksum_address w3 contract_address) as [t|] eqn:Haddr;
    [|rewrite (run_malformed _ _ _ Haddr); exact Hstart].
  destruct (block_number w3) as [latest|e] eqn:Hhead;
    [|rewrite (run_head_failed _ _ _ _ _ Haddr Hhead); exact Hstart].
  destruct (Z.le_gt_cases num_blocks Py.maxsize) as [Hbound|Hbig];
    [|rewrite (run_overflow _ _ _ _ _ Haddr Hhead Hbig); exact Hfresh].
  destruct (run_scanned w3 contract_address num_blocks _ _ Haddr Hhead Hbound)
    as (s & o & er & avi & Hloop & _ & _ & _ & Hrun & _).
  rewrite Hrun. unfold final. cbn [fst snd].
  pose proof (for_each_preserves
    (λ s, StronglySorted (λ later earlier, below earlier later)
                         (vars s :: history s))
    (scan_block w3 t)
    (py_range (latest - num_blocks + 1) (latest + 1))) as Hinv.
  lapply Hinv.
  - intros Hkeep. specialize (Hkeep fresh_store Hfresh).
    rewrite Hloop in Hkeep. exact Hkeep.
  - intros b s0 Hs0. destruct (get_block w3 b) as [txs|e] eqn:Hget.
    + rewrite (scan_block_fetched _ _ _ _ _ Hget).
      pose proof (for_each_preserves
        (λ s, StronglySorted (λ later earlier, below earlier later)
                             (vars s :: history s))
        (process_transaction w3 t) txs
        (process_transaction_grows w3 t) s0 Hs0) as Htxs.
      destruct (for_each txs (process_transaction w3 t) s0)
        as [[[[]|e] s1] o1]; exact Htxs.
    + rewrite (scan_block_fetch_failed _ _ _ _ _ Hget). exact Hs0.
Qed.

(** ** What a block adds does not depend on what came before *)

Lemma plus_zero v : plus v (Locals 0 ∅) = v.
Proof.
  destruct v as [pt us]. unfold plus. cbn [period_transactions period_unique_interactors].
  f_equal; [lia|apply (left_id_L ∅ (∪))].
Qed.

Lemma zero_plus d : plus (Locals 0 ∅) d = d.
Proof.
  destruct d as [pt us]. unfold plus. cbn [period_transactions period_unique_interactors].
  f_equal. apply (right_id_L ∅ (∪)).
Qed.

Lemma plus_assoc v d1 d2 : plus (plus v d1) d2 = plus v (plus d1 d2).
Proof.
  unfold plus. cbn [period_transactions period_unique_interactors].
  f_equal; [lia|apply (assoc_L (∪))].
Qed.

Lemma plus_comm d1 d2 : plus d1 d2 = plus d2 d1.
Proof.
  unfold plus. f_equal; [lia|apply (comm_L (∪))].
Qed.

Lemma process_transaction_framed w3 target_address tx :
  framed (process_transaction w3 target_address tx).
Proof.
  intros s. unfold process_transaction, checksum.
  destruct (tx_to tx) as [raw_to|];
    [|cbn; rewrite plus_zero; repeat split].
  destruct (truthy raw_to); [|cbn; rewrite plus_zero; repeat split].
  unfold_M.
  destruct (to_checksum_address w3 raw_to) as [to_address|];
    [|cbn; rewrite plus_zero; repeat split].
  destruct (String.eqb to_address target_address);
    [|cbn; rewrite plus_zero; repeat split].
  destruct (to_checksum_address w3 (tx_from tx)) as [from_address|];
    cbn [fst snd vars start_store period_transactions period_unique_interactors];
    (split; [reflexivity|]); (split; [reflexivity|]);
    unfold plus; cbn [period_transactions period_unique_interactors];
    f_equal; try lia.
  - rewrite (right_id_L ∅ (∪)). reflexivity.
  - rewrite (left_id_L ∅ (∪)). reflexivity.
Qed.

Lemma for_each_framed {A} (body : A → M unit) l :
  (∀ x, framed (body x)) → framed (for_each l body).
Proof.
  intros Hbody. induction l as [|x l IH]; intros s.
  - cbn. rewrite plus_zero. repeat split.
  - rewrite !for_each_cons. destruct (Hbody x s) as (Hr & Ho & Hv).
    destruct (body x s) as [[r1 s1] o1].
    destruct (body x start_store) as [[r1' s1'] o1'].
    cbn [fst snd] in Hr, Ho, Hv. subst r1' o1'.
    destruct r1 as [[]|e]; [|cbn [fst snd]; repeat split; exact Hv].
    destruct (IH s1) as (Hr2 & Ho2 & Hv2).
    destruct (IH s1') as (Hr3 & Ho3 & Hv3).
    destruct (for_each l body s1) as [[r2 s2] o2].
    destruct (for_each l body s1') as [[r3 s3] o3].
    destruct (for_each l body start_store) as [[r0 s0] o0].
    cbn [fst snd] in *. subst. repeat split.
    rewrite Hv2, Hv3, Hv, plus_assoc. reflexivity.
Qed.

Lemma scan_block_framed w3 target_address block_num :
  framed (scan_block w3 target_address block_num).
Proof.
  intros s. destruct (get_block w3 block_num) as [txs|e] eqn:Hget.
  - rewrite !(scan_block_fetched _ _ _ _ _ Hget).
    destruct (for_each_framed (process_transaction w3 target_address) txs
                (process_transaction_framed w3 target_address) s)
      as (Hr & _ & Hv).
    destruct (for_each txs (process_transaction w3 target_address) s)
      as [[r1 s1] o1].
    destruct (for_each txs (process_transaction w3 target_address) start_store)
      as [[r0 s0] o0].
    cbn [fst snd] in Hr, Hv. subst r0.
    destruct r1 as [[]|e]; cbn [fst snd]; repeat split; exact Hv.
  - rewrite !(scan_block_fetch_failed _ _ _ _ _ Hget). cbn [fst snd].
    repeat split. symmetry. apply plus_zero.
Qed.

Lemma scan_loop_framed w3 target_address blocks :
  framed (for_each blocks (scan_block w3 target_address)).
Proof. apply for_each_framed. intros b. apply scan_block_framed. Qed.

Lemma for_each_app_vars {A} (body : A → M unit) l1 l2 s :
  (∀ x s, ∃ s' o, body x s = (Py.Ok tt, s', o)) →
  (for_each (l1 ++ l2) body s).1.2
  = (for_each l2 body (for_each l1 body s).1.2).1.2.
Proof.
  intros Hbody. revert s. induction l1 as [|x l1 IH]; intros s; [reflexivity|].
  cbn [app]. rewrite !for_each_cons.
  destruct (Hbody x s) as (s1 & o1 & ->). specialize (IH s1).
  destruct (for_each (l1 ++ l2) body s1) as [[r2 s2] o2].
  destruct (for_each l1 body s1) as [[r3 s3] o3]. exact IH.
Qed.

(** What a stretch of blocks adds to the counter and to the set of
    senders is the same whatever was accumulated before it; so the
    totals of a window cut in two are the sum of the two counts and the
    union of the two sets of senders. *)
Theorem totals_add_up w3 target_address older newer s :
  let scan blocks s := (for_each blocks (scan_block w3 target_address) s).1.2 in
  vars (scan newer s) = plus (vars s) (vars (scan newer start_store))
  ∧ period_transactions (vars (scan (older ++ newer) start_store))
    = period_transactions (vars (scan older start_store))
      + period_transactions (vars (scan newer start_store))
  ∧ period_unique_interactors (vars (scan (older ++ newer) start_store))
    = period_unique_interactors (vars (scan newer start_store))
      ∪ period_unique_interactors (vars (scan older start_store)).
Proof.
  cbv zeta.
  assert (∀ blocks s0,
            vars (for_each blocks (scan_block w3 target_address) s0).1.2
            = plus (vars s0)
                (vars (for_each blocks (scan_block w3 target_address)
                         start_store).1.2)) as Hframe
    by (intros blocks s0; apply scan_loop_framed).
  split; [apply Hframe|].
  rewrite for_each_app_vars, Hframe.
  - split; reflexivity.
  - intros b s0. destruct (scan_block_returns w3 target_address b s0)
      as (s' & o & -> & _). eauto.
Qed.

Lemma contribution_permutation w3 target_address blocks blocks' :
  blocks ≡ₚ blocks' →
  vars (for_each blocks (scan_block w3 target_address) start_store).1.2
  = vars (for_each blocks' (scan_block w3 target_address) start_store).1.2.
Proof.
  assert (∀ b l,
    vars (for_each (b :: l) (scan_block w3 target_address) start_store).1.2
    = plus (vars (scan_block w3 target_address b start_store).1.2)
        (vars (for_each l (scan_block w3 target_address) start_store).1.2))
    as Hcons.
  { intros b l. rewrite for_each_cons.
    destruct (scan_block_returns w3 target_address b start_store)
      as (s1 & o1 & -> & _).
    destruct (scan_loop_framed w3 target_address l s1) as (_ & _ & Hv).
    destruct (for_each l (scan_block w3 target_address) s1) as [[r2 s2] o2].
    exact Hv. }
  induction 1 as [|x l l' _ IH|x y l|l1 l2 l3 _ IH1 _ IH2].
  - reflexivity.
  - rewrite !Hcons, IH. reflexivity.
  - rewrite !Hcons, <- !plus_assoc.
    rewrite (plus_comm (vars (scan_block w3 target_address y start_store).1.2)).
    reflexivity.
  - rewrite IH1. exact IH2.
Qed.

(** The order in which blocks are visited does not change the totals:
    any rearrangement of the same block numbers ends with the same count
    and the same set of senders. *)
Theorem visiting_order_is_irrelevant w3 target_address blocks blocks' s :
  blocks ≡ₚ blocks' →
  vars (for_each blocks (scan_block w3 target_address) s).1.2
  = vars (for_each blocks' (scan_block w3 target_address) s).1.2.
Proof.
  intros Hperm.
  destruct (scan_loop_framed w3 target_address blocks s) as (_ & _ & ->).
  destruct (scan_loop_framed w3 target_address blocks' s) as (_ & _ & ->).
  rewrite (contribution_permutation _ _ _ _ Hperm). reflexivity.
Qed.

Lemma visiting_order_is_irrelevant_witness :
  vars (for_each [100; 101; 102] (scan_block Demo.chain Demo.target) fresh_store).1.2
  = vars (for_each [102; 100; 101] (scan_block Demo.chain Demo.target) fresh_store).1.2.
Proof.
  apply (visiting_order_is_irrelevant Demo.chain Demo.target
           [100; 101; 102] [102; 100; 101] fresh_store).
  apply (bool_decide_unpack _). vm_compute. exact I.
Defined.

(** ** What is counted *)

Section Tally.

Variable w3 : provider.
Variable target_address : string.

Lemma tally_nil : tally w3 target_address [] = Locals 0 ∅.
Proof. reflexivity. Qed.

Lemma tally_cons tx txs :
  tally w3 target_address (tx :: txs)
  = plus (tally w3 target_address [tx]) (tally w3 target_address txs).
Proof.
  unfold tally, plus, senders_of.
  cbn [List.filter omap list_omap period_transactions period_unique_interactors].
  destruct (addressed_to w3 target_address tx).
  - f_equal; [cbn [length]; lia|].
    destruct (to_checksum_address w3 (tx_from tx)) as [from_address|];
      cbn [list_to_set]; rewrite (right_id_L ∅ (∪)); [apply (comm_L (∪))|reflexivity].
  - f_equal. cbn [list_to_set]. rewrite (right_id_L ∅ (∪)). reflexivity.
Qed.

Lemma tally_app txs1 txs2 :
  tally w3 target_address (txs1 ++ txs2)
  = plus (tally w3 target_address txs1) (tally w3 target_address txs2).
Proof.
  induction txs1 as [|tx txs1 IH].
  - cbn [app]. rewrite tally_nil, zero_plus. reflexivity.
  - cbn [app]. rewrite tally_cons, IH, <- plus_assoc, <- tally_cons. reflexivity.
Qed.

(** One transaction on which nothing raises. *)
Lemma process_clean tx s :
  clean w3 target_address tx = true →
  ∃ s', process_transaction w3 target_address tx s = (Py.Ok tt, s', [])
        ∧ vars s' = plus (vars s) (tally w3 target_address [tx]).
Proof.
  unfold clean, process_transaction, checksum, tally, senders_of, addressed_to.
  cbn [List.filter omap list_omap].
  destruct (tx_to tx) as [raw_to|];
    [|intros _; exists s; split; [reflexivity|symmetry; apply plus_zero]].
  destruct (truthy raw_to); cbn [andb];
    [|intros _; exists s; split; [reflexivity|symmetry; apply plus_zero]].
  unfold_M.
  destruct (to_checksum_address w3 raw_to) as [to_address|]; [|discriminate].
  destruct (String.eqb to_address target_address);
    [|intros _; exists s; split; [reflexivity|symmetry; apply plus_zero]].
  intros Hfrom. apply bool_decide_eq_true in Hfrom as [from_address Hfrom].
  rewrite Hfrom. eexists. split; [reflexivity|].
  unfold plus. cbn [vars period_transactions period_unique_interactors
                    length list_to_set].
  f_equal. rewrite (right_id_L ∅ (∪)). reflexivity.
Qed.

(** One transaction on which [to_checksum_address] raises. *)
Lemma process_unclean tx s :
  clean w3 target_address tx = false →
  ∃ s', process_transaction w3 target_address tx s = (Py.Raise Py.ValueError, s', [])
        ∧ vars s' = plus (vars s) (residue w3 target_address tx).
Proof.
  unfold clean, process_transaction, checksum, residue, addressed_to.
  destruct (tx_to tx) as [raw_to|]; [|discriminate].
  destruct (truthy raw_to); [|discriminate]. unfold_M. cbn [andb].
  destruct (to_checksum_address w3 raw_to) as [to_address|];
    [|intros _; exists s; split; [reflexivity|symmetry; apply plus_zero]].
  destruct (String.eqb to_address target_address); [|discriminate].
  intros Hfrom. apply bool_decide_eq_false in Hfrom.
  destruct (to_checksum_address w3 (tx_from tx)) as [from_address|];
    [exfalso; apply Hfrom; eauto|].
  eexists. split; [reflexivity|].
  unfold plus. cbn [vars period_transactions period_unique_interactors].
  f_equal. rewrite (left_id_L ∅ (∪)). reflexivity.
Qed.

Lemma process_all_clean txs s :
  Forall (λ tx, clean w3 target_address tx = true) txs →
  ∃ s', for_each txs (process_transaction w3 target_address) s = (Py.Ok tt, s', [])
        ∧ vars s' = plus (vars s) (tally w3 target_address txs).
Proof.
  intros Hall. revert s. induction Hall as [|tx txs Htx _ IH]; intros s.
  - exists s. split; [reflexivity|]. rewrite tally_nil, plus_zero. reflexivity.
  - rewrite for_each_cons. destruct (process_clean tx s Htx) as (s1 & -> & Hv1).
    destruct (IH s1) as (s2 & -> & Hv2). exists s2. split; [reflexivity|].
    rewrite Hv2, Hv1, plus_assoc, <- tally_cons. reflexivity.
Qed.

(** The first transaction on which something raises ends the block. *)
Lemma process_until_unclean pre bad post s :
  Forall (λ tx, clean w3 target_address tx = true) pre →
  clean w3 target_address bad = false →
  ∃ s', for_each (pre ++ bad :: post) (process_transaction w3 target_address) s
        = (Py.Raise Py.ValueError, s', [])
        ∧ vars s' = plus (vars s)
                      (plus (tally w3 target_address pre)
                            (residue w3 target_address bad)).
Proof.
  intros Hpre Hbad. revert s. induction Hpre as [|tx pre Htx _ IH]; intros s.
  - cbn [app]. rewrite for_each_cons.
    destruct (process_unclean bad s Hbad) as (s' & -> & Hv).
    exists s'. split; [reflexivity|]. rewrite tally_nil, zero_plus. exact Hv.
  - cbn [app]. rewrite for_each_cons.
    destruct (process_clean tx s Htx) as (s1 & -> & Hv1).
    destruct (IH s1) as (s' & -> & Hv). exists s'. split; [reflexivity|].
    rewrite Hv, Hv1, (tally_cons tx pre), !plus_assoc. reflexivity.
Qed.

(** A list of transactions either goes through or has a first
    transaction that does not. *)
Lemma first_unclean txs :
  Forall (λ tx, clean w3 target_address tx = true) txs
  ∨ ∃ pre bad post,
      txs = pre ++ bad :: post
      ∧ Forall (λ tx, clean w3 target_address tx = true) pre
      ∧ clean w3 target_address bad = false.
Proof.
  induction txs as [|tx txs IH]; [left; constructor|].
  destruct (clean w3 target_address tx) eqn:Htx.
  - destruct IH as [Hall | (pre & bad & post & -> & Hpre & Hbad)].
    + left. constructor; assumption.
    + right. exists (tx :: pre), bad, post. split; [reflexivity|].
      split; [constructor; assumption|exact Hbad].
  - right. exists [], tx, txs. split; [reflexivity|]. split; [constructor|exact Htx].
Qed.


End Tally.

Lemma served_cons w3 b blocks :
  served w3 (b :: blocks)
  = match get_block w3 b with
    | Py.Ok txs => txs
    | Py.Raise _ => []
    end ++ served w3 blocks.
Proof. reflexivity. Qed.









(** ** Set-up and entry point *)

Example demo_main :
  Cli.main Cli.demo_env Cli.demo_http Demo.target None
  = ([Cli.Dialled "https://mainnet.infura.io/v3/abcdef1234567890"; Cli.Connected],
     Some (run Demo.chain Demo.target 1000)).
Proof. reflexivity. Qed.

Lemma truthy_nonempty raw : truthy raw = true ↔ raw ≠ "".
Proof.
  unfold truthy. destruct (String.eqb raw "") eqn:Heq.
  - apply String.eqb_eq in Heq. split; [discriminate|congruence].
  - apply String.eqb_neq in Heq. split; [intros _; exact Heq|reflexivity].
Qed.

(** The entry point scans exactly when the environment names a project
    id that is neither empty nor the placeholder of the sample [.env]
    and the endpoint of that project answers; the scan is then the one
    of that endpoint, on the contract given, over [--blocks] blocks or
    1000 when the option is left out. *)
Theorem main_scans_iff_connected getenv http contract blocks r :
  (Cli.main getenv http contract blocks).2 = Some r
  ↔ ∃ infura_project_id,
      getenv "INFURA_PROJECT_ID" = Some infura_project_id
      ∧ infura_project_id ≠ ""
      ∧ infura_project_id ≠ Cli.placeholder
      ∧ Cli.is_connected (http (Cli.endpoint infura_project_id)) = true
      ∧ r = run (Cli.api (http (Cli.endpoint infura_project_id))) contract
                (match blocks with Some n => n | None => 1000 end).
Proof.
  unfold Cli.main, Cli.get_eth_connection, Cli.blocks_arg, Cli.default_blocks.
  destruct (getenv "INFURA_PROJECT_ID") as [id|];
    [|split; [discriminate|intros (id & Hid & _); discriminate Hid]].
  destruct (truthy id) eqn:Htruthy; cbn [negb orb].
  - apply truthy_nonempty in Htruthy.
    destruct (String.eqb id Cli.placeholder) eqn:Hph.
    + apply String.eqb_eq in Hph. split; [discriminate|].
      intros (id' & [= <-] & _ & Hne & _). contradiction.
    + apply String.eqb_neq in Hph.
      destruct (Cli.is_connected (http (Cli.endpoint id))) eqn:Hconn; cbn [negb snd].
      * split.
        -- intros [= <-]. exists id. repeat split; assumption.
        -- intros (id' & [= <-] & _ & _ & _ & ->). reflexivity.
      * split; [discriminate|].
        intros (id' & [= <-] & _ & _ & Hconn' & _). congruence.
  - split; [discriminate|].
    intros (id' & [= <-] & Hne & _). apply truthy_nonempty in Hne. congruence.
Qed.

(** Without a usable project id (none in the environment, an empty
    one, or the placeholder) the program prints its three lines of
    advice and stops: it opens no connection and scans nothing,
    whatever the network would have answered. *)
Theorem no_project_id_no_network getenv http contract blocks :
  getenv "INFURA_PROJECT_ID" = None
  ∨ getenv "INFURA_PROJECT_ID" = Some ""
  ∨ getenv "INFURA_PROJECT_ID" = Some Cli.placeholder →
  Cli.main getenv http contract blocks
  = ([Cli.ProjectIdNotFound; Cli.EnvFileHint; Cli.EnvFileExample], None).
Proof.
  unfold Cli.main, Cli.get_eth_connection.
  intros [-> | [-> | ->]]; reflexivity.
Qed.

Lemma no_project_id_no_network_witness :
  Cli.main (λ _, Some Cli.placeholder) Cli.demo_http Demo.target (Some 3)
  = ([Cli.ProjectIdNotFound; Cli.EnvFileHint; Cli.EnvFileExample], None).
Proof.
  apply (no_project_id_no_network
           (λ _, Some Cli.placeholder) Cli.demo_http Demo.target (Some 3)).
  right. right. reflexivity.
Defined.

(** An endpoint that does not answer [is_connected()] is dialled once
    and not scanned: the failure is printed and the node is asked
    neither for its head nor for any block. *)
Theorem refused_connection_is_not_scanned
    getenv http contract blocks infura_project_id :
  getenv "INFURA_PROJECT_ID" = Some infura_project_id →
  infura_project_id ≠ "" →
  infura_project_id ≠ Cli.placeholder →
  Cli.is_connected (http (Cli.endpoint infura_project_id)) = false →
  Cli.main getenv http contract blocks
  = ([Cli.Dialled ("https://mainnet.infura.io/v3/" +:+ infura_project_id);
      Cli.ConnectionFailed], None).
Proof.
  intros Hid Hne Hph Hconn. unfold Cli.main, Cli.get_eth_connection.
  rewrite Hid, (proj2 (truthy_nonempty _) Hne), (proj2 (String.eqb_neq _ _) Hph).
  cbn [negb orb]. rewrite Hconn. reflexivity.
Qed.

Lemma refused_connection_is_not_scanned_witness :
  Cli.main (λ _, Some "someone-else") Cli.demo_http Demo.target None
  = ([Cli.Dialled ("https://mainnet.infura.io/v3/" +:+ "someone-else");
      Cli.ConnectionFailed], None).
Proof.
  apply (refused_connection_is_not_scanned
           (λ _, Some "someone-else") Cli.demo_http Demo.target None
           "someone-else");
    [reflexivity | discriminate | discriminate | reflexivity].
Defined.

(** ** The engagement ratio *)

Lemma round_half_even_floor n d : n / d ≤ Py.round_half_even n d.
Proof.
  unfold Py.round_half_even.
  destruct (2 * (n mod d) ?= d); [destruct (Z.even (n / d))| |]; lia.
Qed.

(** Rounding to 53 bits does not take a fraction that is at least one
    below one. *)
Lemma round53_pos_ge_1 a d : 0 < d → d ≤ a → (1 <= Py.round53_pos a d)%Q.
Proof.
  intros Hd Hda. unfold Py.round53_pos.
  set (k0 := Z.log2 a - Z.log2 d).
  assert (0 ≤ k0) as Hk0 by (pose proof (Z.log2_le_mono d a Hda); lia).
  rewrite (proj2 (Z.leb_le 0 k0) Hk0).
  set (k := if d * 2 ^ k0 <=? a then k0 else k0 - 1).
  assert (0 ≤ k ∧ d * 2 ^ k ≤ a) as [Hk Hka].
  { unfold k. destruct (d * 2 ^ k0 <=? a) eqn:Hcmp.
    - apply Z.leb_le in Hcmp. split; assumption.
    - apply Z.leb_gt in Hcmp.
      assert (k0 ≠ 0) as Hne by (intros H0; rewrite H0 in Hcmp; simpl in Hcmp; lia).
      split; [lia|].
      destruct (Z.log2_spec a ltac:(lia)) as [Ha _].
      destruct (Z.log2_spec d Hd) as [_ Hd'].
      assert (2 ^ Z.log2 a = 2 ^ Z.succ (Z.log2 d) * 2 ^ (k0 - 1)) as Hpow.
      { rewrite <- Z.pow_add_r by (pose proof (Z.log2_nonneg d); lia).
        f_equal. unfold k0. lia. }
      assert (0 < 2 ^ (k0 - 1)) by (apply Z.pow_pos_nonneg; lia).
      nia. }
  destruct (0 <=? k - 52) eqn:He.
  - apply Z.leb_le in He.
    assert (0 < 2 ^ (k - 52)) as Hpe by (apply Z.pow_pos_nonneg; lia).
    assert (2 ^ (k - 52) ≤ 2 ^ k) as Hmono by (apply Z.pow_le_mono_r; lia).
    assert (1 ≤ a / (d * 2 ^ (k - 52))) as Hdiv
      by (apply Z.div_le_lower_bound; nia).
    pose proof (round_half_even_floor a (d * 2 ^ (k - 52))) as Hfloor.
    unfold Qle. simpl. nia.
  - apply Z.leb_gt in He.
    assert (0 < 2 ^ (- (k - 52))) as Hpe by (apply Z.pow_pos_nonneg; lia).
    assert (2 ^ (- (k - 52)) ≤ a * 2 ^ (- (k - 52)) / d) as Hdiv
      by (apply Z.div_le_lower_bound; nia).
    pose proof (round_half_even_floor (a * 2 ^ (- (k - 52))) d) as Hfloor.
    unfold Qle. cbn [Qnum Qden]. rewrite Z2Pos.id by exact Hpe. lia.
Qed.

Lemma binary64_round_ge_1 x : (1 <= x)%Q → (1 <= Py.binary64_round x)%Q.
Proof.
  intros Hx. unfold Py.binary64_round.
  assert (1 <= Qred x)%Q as Hred by (rewrite Qred_correct; exact Hx).
  destruct (Qred x) as [p d]. unfold Qle in Hred. cbn [Qnum Qden] in *.
  destruct p as [|p|p]; [lia| |lia].
  rewrite Qred_correct. apply round53_pos_ge_1; lia.
Qed.

Lemma truediv_ge_1 a b :
  0 < b → b ≤ a → ∃ q, Py.truediv a b = Py.Ok (Py.Float q) ∧ (1 <= q)%Q.
Proof.
  intros Hb Hab. unfold Py.truediv.
  rewrite (proj2 (Z.eqb_neq b 0)) by lia. eexists. split; [reflexivity|].
  apply binary64_round_ge_1, Qle_shift_div_l.
  - unfold Qlt. simpl. lia.
  - rewrite Qmult_1_l, <- Zle_Qle. exact Hab.
Qed.

(** A scan that finds a sender reports an engagement ratio, the rounded
    quotient of the two counts, of at least one transaction per
    sender. *)
Theorem engagement_is_at_least_one
    w3 contract_address num_blocks target_address latest :
  to_checksum_address w3 contract_address = Some target_address →
  block_number w3 = Py.Ok latest →
  (0 < size (period_unique_interactors
               (vars (final (run w3 contract_address num_blocks)))))%nat →
  let r := run w3 contract_address num_blocks in
  ∃ q avi,
    reported (trace r)
    = [(period_transactions (vars (final r)),
        Z.of_nat (size (period_unique_interactors (vars (final r)))),
        Py.Float q, avi)]
    ∧ (1 <= q)%Q.
Proof.
  intros Haddr Hhead Hsome. cbv zeta.
  pose proof (senders_imply_scanned _ _ _ _ _ Haddr Hhead Hsome) as Hbound.
  revert Hsome.
  destruct (run_scanned w3 contract_address num_blocks _ _ Haddr Hhead Hbound)
    as (s & o & er & avi & Hloop & _ & Hnone & _ & Hrun & _ & Hpos).
  pose proof (scan_loop_counted w3 target_address
                (py_range (latest - num_blocks + 1) (latest + 1))
                fresh_store fresh_store_counted) as [Hcounted _].
  rewrite Hloop in Hcounted. cbn [fst snd] in Hcounted. unfold counted in Hcounted.
  rewrite Hrun. unfold final, trace. cbn [fst snd]. intros Hsize.
  destruct (Hpos Hsize) as [Hdiv _].
  destruct (truediv_ge_1 (period_transactions (vars s))
              (Z.of_nat (size (period_unique_interactors (vars s)))))
    as (q & Hq & Hge); [lia|exact Hcounted|].
  rewrite Hq in Hdiv. injection Hdiv as <-.
  exists q, avi. split; [apply reported_of_run, Hnone|exact Hge].
Qed.

Lemma engagement_is_at_least_one_witness :
  ∃ q avi,
    reported (trace (run Demo.chain Demo.target 3))
    = [(period_transactions (vars (final (run Demo.chain Demo.target 3))),
        Z.of_nat (size (period_unique_interactors
                          (vars (final (run Demo.chain Demo.target 3))))),
        Py.Float q, avi)]
    ∧ (1 <= q)%Q.
Proof.
  apply (engagement_is_at_least_one Demo.chain Demo.target 3 Demo.target 102);
    [reflexivity | reflexivity | vm_compute; lia].
Defined.

(** ** Nothing is counted that was not served *)

Lemma below_plus_r v d d' : below d d' → below (plus v d) (plus v d').
Proof.
  intros [Hpt Hus]. split; cbn [plus period_transactions period_unique_interactors].
  - lia.
  - apply union_mono_r, Hus.
Qed.

Lemma below_plus_l v v' d : below v v' → below (plus v d) (plus v' d).
Proof.
  intros [Hpt Hus]. split; cbn [plus period_transactions period_unique_interactors].
  - lia.
  - apply union_mono_l, Hus.
Qed.

Lemma residue_below_tally w3 target_address bad post :
  below (residue w3 target_address bad)
        (tally w3 target_address (bad :: post)).
Proof.
  unfold below, residue, tally.
  cbn [period_transactions period_unique_interactors List.filter].
  split; [|apply empty_subseteq].
  destruct (addressed_to w3 target_address bad); cbn [length]; lia.
Qed.

Lemma scan_block_sound w3 target_address block_num s :
  below (vars (scan_block w3 target_address block_num s).1.2)
        (plus (vars s) (tally w3 target_address (served w3 [block_num]))).
Proof.
  rewrite served_cons. cbn [served mbind list_bind]. rewrite app_nil_r.
  destruct (get_block w3 block_num) as [txs|e] eqn:Hget.
  - rewrite (scan_block_fetched _ _ _ _ _ Hget).
    destruct (first_unclean w3 target_address txs)
      as [Hall | (pre & bad & post & -> & Hpre & Hbad)].
    + destruct (process_all_clean w3 target_address txs s Hall) as (s' & -> & Hv).
      cbn [fst snd]. rewrite Hv. apply below_refl.
    + destruct (process_until_unclean w3 target_address pre bad post s Hpre Hbad)
        as (s' & -> & Hv).
      cbn [fst snd]. rewrite Hv, tally_app.
      apply below_plus_r, below_plus_r, residue_below_tally.
  - rewrite (scan_block_fetch_failed _ _ _ _ _ Hget). cbn [fst snd].
    rewrite tally_nil, plus_zero. apply below_refl.
Qed.

Lemma scan_loop_sound w3 target_address blocks s :
  below (vars (for_each blocks (scan_block w3 target_address) s).1.2)
        (plus (vars s) (tally w3 target_address (served w3 blocks))).
Proof.
  revert s. induction blocks as [|b blocks IH]; intros s.
  - cbn. rewrite plus_zero. apply below_refl.
  - rewrite for_each_cons.
    pose proof (scan_block_sound w3 target_address b s) as Hb.
    destruct (scan_block_returns w3 target_address b s) as (s1 & o1 & Hscan & _).
    rewrite Hscan in Hb |- *. cbn [fst snd] in Hb. specialize (IH s1).
    destruct (for_each blocks (scan_block w3 target_address) s1) as [[r2 s2] o2].
    cbn [fst snd] in *. eapply below_trans; [exact IH|].
    change (b :: blocks) with ([b] ++ blocks).
    unfold served at 2. rewrite bind_app. fold (served w3 [b]) (served w3 blocks).
    rewrite tally_app, <- plus_assoc. apply below_plus_l, Hb.
Qed.

(** Whatever fails on the way, a scan never counts more than there is:
    the count it ends with is at most the number of transactions
    addressed to the target in the served blocks of the window, and
    every sender it ends with is the canonical sender of one of them. *)
Theorem nothing_is_counted_that_was_not_served
    w3 contract_address num_blocks target_address latest :
  to_checksum_address w3 contract_address = Some target_address →
  block_number w3 = Py.Ok latest →
  let r := run w3 contract_address num_blocks in
  let txs := served w3 (py_range (latest - num_blocks + 1) (latest + 1)) in
  period_transactions (vars (final r))
  ≤ Z.of_nat (length (List.filter (addressed_to w3 target_address) txs))
  ∧ ∀ sender, sender ∈ period_unique_interactors (vars (final r)) →
      ∃ tx, tx ∈ txs
            ∧ addressed_to w3 target_address tx = true
            ∧ to_checksum_address w3 (tx_from tx) = Some sender.
Proof.
  intros Haddr Hhead. cbv zeta.
  destruct (Z.le_gt_cases num_blocks Py.maxsize) as [Hbound|Hbig].
  2:{ rewrite (run_overflow _ _ _ _ _ Haddr Hhead Hbig). unfold final.
      cbn [fst snd vars fresh_store period_transactions period_unique_interactors].
      split; [lia|]. intros sender Hin. apply not_elem_of_empty in Hin.
      contradiction. }
  destruct (run_scanned w3 contract_address num_blocks _ _ Haddr Hhead Hbound)
    as (s & o & er & avi & Hloop & _ & _ & _ & Hrun & _).
  pose proof (scan_loop_sound w3 target_address
                (py_range (latest - num_blocks + 1) (latest + 1)) fresh_store)
    as [Hpt Hus].
  rewrite Hloop in Hpt, Hus. cbn [fst snd] in Hpt, Hus.
  change (vars fresh_store) with (Locals 0 ∅) in Hpt, Hus.
  rewrite zero_plus in Hpt, Hus.
  rewrite Hrun. unfold final. cbn [fst snd]. split; [exact Hpt|].
  intros sender Hin. apply Hus in Hin.
  unfold tally, senders_of in Hin. cbn [period_unique_interactors] in Hin.
  apply elem_of_list_to_set, list_elem_of_omap in Hin as (tx & Htx & Hsome).
  exists tx. split; [exact Htx|].
  destruct (addressed_to w3 target_address tx); [|discriminate Hsome].
  split; [reflexivity|exact Hsome].
Qed.

Lemma nothing_is_counted_that_was_not_served_witness :
  let r := run Demo.broken Demo.target 2 in
  let txs := served Demo.broken (py_range (102 - 2 + 1) (102 + 1)) in
  period_transactions (vars (final r))
  ≤ Z.of_nat (length (List.filter (addressed_to Demo.broken Demo.target) txs))
  ∧ ∀ sender, sender ∈ period_unique_interactors (vars (final r)) →
      ∃ tx, tx ∈ txs
            ∧ addressed_to Demo.broken Demo.target tx = true
            ∧ to_checksum_address Demo.broken (tx_from tx) = Some sender.
Proof.
  apply (nothing_is_counted_that_was_not_served
           Demo.broken Demo.target 2 Demo.target 102); reflexivity.
Defined.

(** ** A window too long for the progress bar *)


